(** * CustomCrawler: construction-time option assembly

    A shallow embedding of [helper_functions/crawler.py].  The file has one
    class, [CustomCrawler], whose only method is [__init__]: it inspects the
    process environment, accumulates Chrome launch flags on a Python list,
    registers the deduplicated flags on a Selenium [Options] object, starts
    the browser and stores the crawl configuration on [self].

    Python's mutable lists and instances live in an explicit heap, so that
    aliasing between the caller's list and the list the constructor works
    on is visible.  Exceptions and the calls to the two effectful externals
    ([os.geteuid] and [webdriver.Chrome]) are tracked by a small
    state/error/log monad.  Two behaviours of the libraries the class is
    built on are part of the model: Selenium's [add_argument] raises
    [ValueError] on an empty string, and the base class of haystack's
    components sets [_component_config] on the instance before the body of
    [__init__] runs. *)

From Stdlib Require Import ZArith.
From stdpp Require Import gmap strings list fin_maps sets.

Local Open Scope string_scope.
Local Open Scope list_scope.

(** ** Python values and the heap *)

Definition loc := positive.

(** A live browser session is an opaque handle. *)
Definition Session := nat.

#[local] Set Warnings "-register-all".

Inductive value :=
| VNone
| VBool (b : bool)
| VInt (z : Z)
| VStr (s : string)
| VPath (p : string)
| VList (l : loc)
| VCallable (f : nat)
| VDriver (s : Session)
| VDict (items : list (string * value)).

(** [lists] holds every Python list of strings, [objects] the attribute
    dictionary of every instance. *)
Record Heap := {
  lists : gmap loc (list string);
  objects : gmap loc (gmap string value)
}.

(** ** The process environment

    What [__init__] reads from the interpreter and the operating system:
    [sys.modules] (its keys), [os.environ], [sys.platform], [os.geteuid]
    ([None] where the [os] module has no such attribute, as on Windows),
    the driver path exported by [chromedriver_py], and the behaviour of
    [webdriver.Chrome] for a driver path and a list of arguments: a session,
    or the message of the [WebDriverException] it raises. *)
Record World := {
  sys_modules : gset string;
  os_environ : gmap string string;
  sys_platform : string;
  os_geteuid : option Z;
  binary_path : string;
  webdriver_Chrome : string → list string → string + Session
}.

(** ** Effects *)

Inductive exn :=
| AttributeError (name : string)
| WebDriverException (msg : string)
| ValueError (msg : string)
| DanglingReference (l : loc).

Inductive event :=
| EvGeteuid
| EvChrome (service : string) (args : list string).

Inductive result (A : Type) :=
| Ok (a : A)
| Raise (e : exn).
Arguments Ok {A} a.
Arguments Raise {A} e.

Record outcome (A : Type) := {
  res : result A;
  heap : Heap;
  log : list event
}.
Arguments res {A} o.
Arguments heap {A} o.
Arguments log {A} o.

Definition M (A : Type) : Type := Heap → outcome A.

Definition ret {A} (a : A) : M A :=
  λ h, {| res := Ok a; heap := h; log := [] |}.

Definition raise {A} (e : exn) : M A :=
  λ h, {| res := Raise e; heap := h; log := [] |}.

(** [after t o]: the outcome [o] of a computation that ran after the
    events [t]. *)
Definition after {A} (t : list event) (o : outcome A) : outcome A :=
  {| res := res o; heap := heap o; log := t ++ log o |}.

(** Sequencing: an exception stops the computation, the heap changes and
    the events that came before it stay. *)
Definition bind {A B} (m : M A) (k : A → M B) : M B :=
  λ h, let o := m h in
       match res o with
       | Ok a => after (log o) (k a (heap o))
       | Raise e => {| res := Raise e; heap := heap o; log := log o |}
       end.

Notation "'let*' x := m 'in' k" := (bind m (λ x, k))
  (at level 10, x name, m at level 100, k at level 200, only parsing).
Notation "m ;;; k" := (bind m (λ _, k))
  (at level 100, k at level 200, right associativity).

Definition emit (ev : event) : M unit :=
  λ h, {| res := Ok tt; heap := h; log := [ev] |}.

(** [if b: m] *)
Definition when (b : bool) (m : M unit) : M unit :=
  if b then m else ret tt.

(** [for x in xs: acc = f(acc, x)], stopping at the first exception. *)
Fixpoint foldM {A B} (f : B → A → M B) (b : B) (xs : list A) : M B :=
  match xs with
  | [] => ret b
  | x :: xs' => let* b' := f b x in foldM f b' xs'
  end.

(** *** Lists *)

(** A list display allocates a new list object. *)
Definition list_new (xs : list string) : M loc :=
  λ h, let l := fresh (dom (lists h)) in
       {| res := Ok l;
          heap := {| lists := <[l:=xs]> (lists h); objects := objects h |};
          log := [] |}.

(** [l.append(x)] updates the object [l] refers to.  A reference that the
    heap does not hold cannot arise in Python; the model marks it with
    [DanglingReference]. *)
Definition list_append (l : loc) (x : string) : M unit :=
  λ h, match lists h !! l with
       | Some xs =>
           {| res := Ok tt;
              heap := {| lists := <[l:=xs ++ [x]]> (lists h);
                         objects := objects h |};
              log := [] |}
       | None => raise (DanglingReference l) h
       end.

(** [set(l)].  Python leaves the iteration order of a set open; the loop
    of [__init__] visits the set in the order of [elements], and nothing
    proved below depends on that order. *)
Definition set_of_list (l : loc) : M (gset string) :=
  λ h, match lists h !! l with
       | Some xs => ret (list_to_set xs) h
       | None => raise (DanglingReference l) h
       end.

(** *** Instances *)

(** [object.__new__]: a new instance without attributes. *)
Definition object_new : M loc :=
  λ h, let self := fresh (dom (objects h)) in
       {| res := Ok self;
          heap := {| lists := lists h; objects := <[self:=∅]> (objects h) |};
          log := [] |}.

(** [self.name = v] *)
Definition setattr (self : loc) (name : string) (v : value) : M unit :=
  λ h, match objects h !! self with
       | Some attrs =>
           {| res := Ok tt;
              heap := {| lists := lists h;
                         objects := <[self:=<[name:=v]> attrs]> (objects h) |};
              log := [] |}
       | None => raise (DanglingReference self) h
       end.

(** *** Externals *)

(** [os.geteuid()] *)
Definition geteuid (w : World) : M Z :=
  emit EvGeteuid ;;;
  match os_geteuid w with
  | Some uid => ret uid
  | None => raise (AttributeError "geteuid")
  end.

(** Selenium's [Options], a library outside this repository: the launch
    arguments registered so far, in registration order.  [Options()] starts
    without arguments.  [add_argument] registers one more argument and
    rejects the empty string: its body is
    [if argument: self._arguments.append(argument)
     else: raise ValueError("argument can not be null")]. *)
Record Options := { arguments : list string }.

Definition Options_new : Options := {| arguments := [] |}.

Definition add_argument (o : Options) (a : string) : M Options :=
  match a with
  | String _ _ => ret {| arguments := arguments o ++ [a] |}
  | EmptyString => raise (ValueError "argument can not be null")
  end.

(** [webdriver.Chrome(service=Service(path), options=o)] *)
Definition Chrome (w : World) (path : string) (o : Options) : M Session :=
  emit (EvChrome path (arguments o)) ;;;
  match webdriver_Chrome w path (arguments o) with
  | inr s => ret s
  | inl msg => raise (WebDriverException msg)
  end.

(** ** The class *)

(** The parameters of [__init__] after the defaults are filled in.
    [webdriver_options] is [Optional[List[str]]]: nothing, or a reference
    to a list. *)
Record Params := {
  urls : value;
  crawler_depth : value;
  filter_urls : value;
  id_hash_keys : value;
  extract_hidden_text : value;
  loading_wait_time : value;
  output_dir : value;
  overwrite_existing_files : value;
  file_path_meta_field_name : value;
  crawler_naming_function : value;
  webdriver_options : option loc
}.

(** The arguments of a call [CustomCrawler(...)]: every parameter may be
    left out. *)
Record CallArgs := {
  arg_urls : option value;
  arg_crawler_depth : option value;
  arg_filter_urls : option value;
  arg_id_hash_keys : option value;
  arg_extract_hidden_text : option value;
  arg_loading_wait_time : option value;
  arg_output_dir : option value;
  arg_overwrite_existing_files : option value;
  arg_file_path_meta_field_name : option value;
  arg_crawler_naming_function : option value;
  arg_webdriver_options : option loc
}.

(** The defaults of the signature of [__init__]. *)
Definition with_defaults (a : CallArgs) : Params := {|
  urls := default VNone (arg_urls a);
  crawler_depth := default (VInt 1) (arg_crawler_depth a);
  filter_urls := default VNone (arg_filter_urls a);
  id_hash_keys := default VNone (arg_id_hash_keys a);
  extract_hidden_text := default (VBool true) (arg_extract_hidden_text a);
  loading_wait_time := default VNone (arg_loading_wait_time a);
  output_dir := default VNone (arg_output_dir a);
  overwrite_existing_files :=
    default (VBool true) (arg_overwrite_existing_files a);
  file_path_meta_field_name := default VNone (arg_file_path_meta_field_name a);
  crawler_naming_function := default VNone (arg_crawler_naming_function a);
  webdriver_options := arg_webdriver_options a
|}.

(** The arguments a call passes, by parameter name, in the order of the
    signature; [webdriver_options] is among them when a list is passed. *)
Definition passed_params (a : CallArgs) : list (string * value) :=
  omap (λ kv, (λ v, (kv.1, v)) <$> kv.2)
    [ ("urls", arg_urls a);
      ("crawler_depth", arg_crawler_depth a);
      ("filter_urls", arg_filter_urls a);
      ("id_hash_keys", arg_id_hash_keys a);
      ("extract_hidden_text", arg_extract_hidden_text a);
      ("loading_wait_time", arg_loading_wait_time a);
      ("output_dir", arg_output_dir a);
      ("overwrite_existing_files", arg_overwrite_existing_files a);
      ("file_path_meta_field_name", arg_file_path_meta_field_name a);
      ("crawler_naming_function", arg_crawler_naming_function a);
      ("webdriver_options", VList <$> arg_webdriver_options a) ].

(** [{"params": {...}, "type": "CustomCrawler"}] *)
Definition component_config (a : CallArgs) : value :=
  VDict [ ("params", VDict (passed_params a));
          ("type", VStr "CustomCrawler") ].

Module CustomCrawler.

(** ["google.colab" in sys.modules] *)
Definition IN_COLAB (w : World) : bool :=
  bool_decide ("google.colab" ∈ sys_modules w).

(** [os.environ.get("AZUREML_ENVIRONMENT_IMAGE", None) == "True"] *)
Definition IN_AZUREML (w : World) : bool :=
  bool_decide (os_environ w !! "AZUREML_ENVIRONMENT_IMAGE" = Some "True").

(** [sys.platform in ["win32", "cygwin"]] *)
Definition IN_WINDOWS (w : World) : bool :=
  bool_decide (sys_platform w ∈ ["win32"; "cygwin"]).

(** [not IN_WINDOWS and os.geteuid() == 0]: [and] evaluates its right
    operand only when the left one is true. *)
Definition IS_ROOT (w : World) : M bool :=
  if negb (IN_WINDOWS w) then
    let* uid := geteuid w in ret (uid =? 0)%Z
  else ret false.

Definition default_options : list string :=
  ["--headless"; "--disable-gpu"; "--disable-dev-shm-usage";
   "--single-process"].

Definition __init__ (w : World) (self : loc) (p : Params) : M unit :=
  let IN_COLAB := IN_COLAB w in
  let IN_AZUREML := IN_AZUREML w in
  let IN_WINDOWS := IN_WINDOWS w in
  let* IS_ROOT := IS_ROOT w in
  let* webdriver_options :=
    match webdriver_options p with
    | None => list_new default_options
    | Some l => ret l
    end in
  list_append webdriver_options "--headless" ;;;
  when (IS_ROOT || IN_WINDOWS || IN_COLAB)
    (list_append webdriver_options "--no-sandbox") ;;;
  when (IS_ROOT || IN_WINDOWS)
    (list_append webdriver_options "--remote-debugging-port=9222") ;;;
  when (IN_COLAB || IN_AZUREML)
    (list_append webdriver_options "--disable-dev-shm-usage") ;;;
  let* unique := set_of_list webdriver_options in
  let* options := foldM add_argument Options_new (elements unique) in
  let* driver := Chrome w (binary_path w) options in
  setattr self "driver" (VDriver driver) ;;;
  setattr self "urls" (urls p) ;;;
  setattr self "crawler_depth" (crawler_depth p) ;;;
  setattr self "filter_urls" (filter_urls p) ;;;
  setattr self "overwrite_existing_files" (overwrite_existing_files p) ;;;
  setattr self "id_hash_keys" (id_hash_keys p) ;;;
  setattr self "extract_hidden_text" (extract_hidden_text p) ;;;
  setattr self "loading_wait_time" (loading_wait_time p) ;;;
  setattr self "crawler_naming_function" (crawler_naming_function p) ;;;
  setattr self "output_dir" (output_dir p) ;;;
  setattr self "file_path_meta_field_name" (file_path_meta_field_name p).

(** [CustomCrawler] derives from haystack's [Crawler], a component class
    of a library outside this repository.  The base class of all
    components replaces the [__init__] of every subclass by a wrapper that
    records the class name and the arguments of the call in
    [self._component_config] and then runs the body. *)
Definition wrapped_init (w : World) (self : loc) (a : CallArgs) : M unit :=
  setattr self "_component_config" (component_config a) ;;;
  __init__ w self (with_defaults a).

(** The call [CustomCrawler(...)]: Python allocates the instance, runs
    the (wrapped) [__init__] on it and hands the instance to the caller
    only when that returned. *)
Definition new (w : World) (a : CallArgs) : M loc :=
  let* self := object_new in
  wrapped_init w self a ;;;
  ret self.

End CustomCrawler.

Import CustomCrawler.

(** ** What a run shows *)

(** The argument lists [webdriver.Chrome] was called with. *)
Definition chrome_calls (t : list event) : list (list string) :=
  omap (λ ev, match ev with EvChrome _ args => Some args | _ => None end) t.

(** The launch arguments registered on the browser session of a run. *)
Definition registered {A} (o : outcome A) : option (list string) :=
  head (chrome_calls (log o)).

(** [getattr(obj, name)] *)
Definition getattr (obj : loc) (name : string) : M value :=
  λ h, match objects h !! obj with
       | Some attrs =>
           match attrs !! name with
           | Some v => ret v h
           | None => raise (AttributeError name) h
           end
       | None => raise (DanglingReference obj) h
       end.

(** Inputs as Python can produce them: off Windows the [os] module has
    [geteuid], and a list passed as [webdriver_options] is in the heap. *)
Definition well_formed (w : World) (a : CallArgs) (h : Heap) : bool :=
  (IN_WINDOWS w || bool_decide (is_Some (os_geteuid w))) &&
  match arg_webdriver_options a with
  | Some l => bool_decide (is_Some (lists h !! l))
  | None => true
  end.

(** ** The flag rules as data *)

(** A rule: a condition and the flag appended when it holds. *)
Definition rule : Type := bool * string.

Definition apply_rule (acc : list string) (r : rule) : list string :=
  if r.1 then acc ++ [r.2] else acc.

Definition apply_rules (rs : list rule) (base : list string) : list string :=
  foldl apply_rule base rs.

(** The four appends of [__init__], in source order. *)
Definition launch_rules (root win colab azure : bool) : list rule :=
  [ (true, "--headless");
    (root || win || colab, "--no-sandbox");
    (root || win, "--remote-debugging-port=9222");
    (colab || azure, "--disable-dev-shm-usage") ].

(** The value of [IS_ROOT] where it can be computed. *)
Definition superuser (w : World) : bool :=
  negb (IN_WINDOWS w) && bool_decide (os_geteuid w = Some 0%Z).

Definition rules_of (w : World) : list rule :=
  launch_rules (superuser w) (IN_WINDOWS w) (IN_COLAB w) (IN_AZUREML w).

(** The list [__init__] appends to, and what it holds before. *)
Definition target (a : CallArgs) (h : Heap) : loc * list string :=
  match arg_webdriver_options a with
  | Some l => (l, default [] (lists h !! l))
  | None => (fresh (dom (lists h)), default_options)
  end.

(** The attributes of an instance whose construction failed. *)
Definition bare_attrs (a : CallArgs) : gmap string value :=
  {[ "_component_config" := component_config a ]}.

(** The attributes after the eleven assignments of [__init__]. *)
Definition stored_attrs (s : Session) (p : Params)
    (attrs : gmap string value) : gmap string value :=
  <["file_path_meta_field_name" := file_path_meta_field_name p]>
  (<["output_dir" := output_dir p]>
  (<["crawler_naming_function" := crawler_naming_function p]>
  (<["loading_wait_time" := loading_wait_time p]>
  (<["extract_hidden_text" := extract_hidden_text p]>
  (<["id_hash_keys" := id_hash_keys p]>
  (<["overwrite_existing_files" := overwrite_existing_files p]>
  (<["filter_urls" := filter_urls p]>
  (<["crawler_depth" := crawler_depth p]>
  (<["urls" := urls p]>
  (<["driver" := VDriver s]> attrs)))))))))).

(** The attributes of a fully initialised instance. *)
Definition instance_attrs (s : Session) (a : CallArgs) : gmap string value :=
  stored_attrs s (with_defaults a) (bare_attrs a).

(** The caller's list, or the default list, holds no empty string: the
    condition under which Selenium accepts every option. *)
Definition no_empty_option (a : CallArgs) (h : Heap) : bool :=
  bool_decide ("" ∉ (target a h).2).

(** The outcome of a call on well-formed inputs, in closed form. *)
Definition construction (w : World) (a : CallArgs) (h : Heap) : outcome loc :=
  let self := fresh (dom (objects h)) in
  let acc := apply_rules (rules_of w) (target a h).2 in
  let opts := elements (list_to_set acc : gset string) in
  let ls := <[(target a h).1 := acc]> (lists h) in
  let t := if IN_WINDOWS w then [] else [EvGeteuid] in
  if no_empty_option a h then
    match webdriver_Chrome w (binary_path w) opts with
    | inl msg =>
        {| res := Raise (WebDriverException msg);
           heap := {| lists := ls;
                      objects := <[self:=bare_attrs a]> (objects h) |};
           log := t ++ [EvChrome (binary_path w) opts] |}
    | inr s =>
        {| res := Ok self;
           heap := {| lists := ls;
                      objects := <[self:=instance_attrs s a]> (objects h) |};
           log := t ++ [EvChrome (binary_path w) opts] |}
    end
  else
    {| res := Raise (ValueError "argument can not be null");
       heap := {| lists := ls;
                  objects := <[self:=bare_attrs a]> (objects h) |};
       log := t |}.

(** The ten crawl-configuration attributes. *)
Definition config_fields : list string :=
  ["urls"; "crawler_depth"; "filter_urls"; "id_hash_keys";
   "extract_hidden_text"; "loading_wait_time"; "output_dir";
   "overwrite_existing_files"; "file_path_meta_field_name";
   "crawler_naming_function"].

(** A computation that never evaluates [os.geteuid()]. *)
Definition no_lookup {A} (m : M A) : Prop :=
  ∀ h, EvGeteuid ∉ log (m h).

(** ** Sample environments and calls *)

(** A Linux container running as root; the driver starts. *)
Definition linux_root : World := {|
  sys_modules := ∅; os_environ := ∅; sys_platform := "linux";
  os_geteuid := Some 0%Z; binary_path := "/usr/bin/chromedriver";
  webdriver_Chrome := λ _ _, inr 7%nat |}.

(** A Linux desktop, ordinary user. *)
Definition linux_user : World := {|
  sys_modules := ∅; os_environ := ∅; sys_platform := "linux";
  os_geteuid := Some 1000%Z; binary_path := "/usr/bin/chromedriver";
  webdriver_Chrome := λ _ _, inr 7%nat |}.

(** A notebook session of an ordinary user with [google.colab] loaded. *)
Definition colab_user : World := {|
  sys_modules := {["google.colab"]}; os_environ := ∅;
  sys_platform := "linux"; os_geteuid := Some 1000%Z;
  binary_path := "/usr/bin/chromedriver";
  webdriver_Chrome := λ _ _, inr 7%nat |}.

(** Windows: the [os] module has no [geteuid]. *)
Definition windows_host : World := {|
  sys_modules := ∅; os_environ := ∅; sys_platform := "win32";
  os_geteuid := None; binary_path := "chromedriver.exe";
  webdriver_Chrome := λ _ _, inr 7%nat |}.

(** A Linux desktop on which Chrome does not start. *)
Definition linux_no_chrome : World := {|
  sys_modules := ∅; os_environ := ∅; sys_platform := "linux";
  os_geteuid := Some 1000%Z; binary_path := "/usr/bin/chromedriver";
  webdriver_Chrome := λ _ _, inl "DevToolsActivePort file missing" |}.

(** [CustomCrawler()] *)
Definition no_args : CallArgs :=
  Build_CallArgs None None None None None None None None None None None.

Definition empty_heap : Heap := {| lists := ∅; objects := ∅ |}.

(** [opts = ["--window-size=800,600"]; CustomCrawler(webdriver_options=opts)] *)
Definition caller_heap : Heap :=
  {| lists := {[ 1%positive := ["--window-size=800,600"] ]}; objects := ∅ |}.

Definition caller_args : CallArgs :=
  Build_CallArgs None None None None None None None None None None
    (Some 1%positive).

(** [CustomCrawler(urls=seeds, crawler_depth=0, extract_hidden_text=False,
    output_dir="out")], the list [seeds] at location 2. *)
Definition crawl_heap : Heap :=
  {| lists := {[ 2%positive := ["https://example.org"] ]}; objects := ∅ |}.

Definition crawl_args : CallArgs := {|
  arg_urls := Some (VList 2%positive);
  arg_crawler_depth := Some (VInt 0);
  arg_filter_urls := None;
  arg_id_hash_keys := None;
  arg_extract_hidden_text := Some (VBool false);
  arg_loading_wait_time := None;
  arg_output_dir := Some (VStr "out");
  arg_overwrite_existing_files := None;
  arg_file_path_meta_field_name := None;
  arg_crawler_naming_function := None;
  arg_webdriver_options := None |}.

(** [l = ["--window-size=800,600"]; CustomCrawler(urls=l, webdriver_options=l)] *)
Definition aliased_args : CallArgs :=
  Build_CallArgs (Some (VList 1%positive)) None None None None None None
    None None None (Some 1%positive).

(** A Linux desktop with the given [os.environ]. *)
Definition with_environ (env : gmap string string) : World := {|
  sys_modules := ∅; os_environ := env; sys_platform := "linux";
  os_geteuid := Some 1000%Z; binary_path := "/usr/bin/chromedriver";
  webdriver_Chrome := λ _ _, inr 7%nat |}.

(** [opts = ["--lang=de", ""]; CustomCrawler(webdriver_options=opts)] *)
Definition blank_heap : Heap :=
  {| lists := {[ 1%positive := ["--lang=de"; ""] ]}; objects := ∅ |}.

(** A platform that is not Windows and whose [os] module has no
    [geteuid]. *)
Definition wasm_host : World := {|
  sys_modules := ∅; os_environ := ∅; sys_platform := "emscripten";
  os_geteuid := None; binary_path := "chromedriver";
  webdriver_Chrome := λ _ _, inr 7%nat |}.

(** A heap with two lists and one instance that are not part of the call
    [CustomCrawler(webdriver_options=opts)], [opts] at location 1. *)
Definition busy_heap : Heap :=
  {| lists := {[ 1%positive := ["--window-size=800,600"];
                 2%positive := ["https://example.org"];
                 3%positive := ["--headless"; "--headless"] ]};
     objects := {[ 1%positive := {[ "urls" := VList 2%positive ]} ]} |}.

(** The same flags as in [caller_heap], twice and with another order. *)
Definition shuffled_heap : Heap :=
  {| lists := {[ 1%positive := ["--lang=de"; "--window-size=800,600";
                                "--lang=de"] ]};
     objects := ∅ |}.

Definition ordered_heap : Heap :=
  {| lists := {[ 1%positive := ["--window-size=800,600"; "--lang=de"] ]};
     objects := ∅ |}.

(** ** Running the primitives *)

Lemma IS_ROOT_run (w : World) (h : Heap) :
  IN_WINDOWS w || bool_decide (is_Some (os_geteuid w)) = true →
  IS_ROOT w h = {| res := Ok (superuser w); heap := h;
                   log := if IN_WINDOWS w then [] else [EvGeteuid] |}.
Proof.
  unfold IS_ROOT, superuser. destruct (IN_WINDOWS w); simpl; [done|].
  intros Hg. apply bool_decide_eq_true in Hg as [uid Hg].
  unfold bind, geteuid, bind, emit. simpl. rewrite Hg. simpl.
  do 2 f_equal. destruct (Z.eqb_spec uid 0) as [->|Hne].
  - by rewrite bool_decide_eq_true_2.
  - rewrite bool_decide_eq_false_2; [done|]. congruence.
Qed.

Lemma bind_ok {A B} (m : M A) (k : A → M B) (h h' : Heap) (a : A)
    (t : list event) :
  m h = {| res := Ok a; heap := h'; log := t |} →
  bind m k h = after t (k a h').
Proof. intros Hm. unfold bind. by rewrite Hm. Qed.

Lemma after_nil {A} (o : outcome A) : after [] o = o.
Proof. by destruct o. Qed.

Lemma bind_raise {A B} (m : M A) (k : A → M B) (h h' : Heap) (e : exn)
    (t : list event) :
  m h = {| res := Raise e; heap := h'; log := t |} →
  bind m k h = {| res := Raise e; heap := h'; log := t |}.
Proof. intros Hm. unfold bind. by rewrite Hm. Qed.

Lemma foldM_add_argument_ok (o : Options) (xs : list string) (h : Heap) :
  "" ∉ xs →
  foldM add_argument o xs h =
  {| res := Ok {| arguments := arguments o ++ xs |}; heap := h; log := [] |}.
Proof.
  revert o. induction xs as [|x xs IH]; intros o Hxs; simpl.
  - rewrite app_nil_r. by destruct o.
  - apply not_elem_of_cons in Hxs as [Hx Hxs].
    destruct x as [|c x]; [done|].
    erewrite bind_ok by reflexivity. rewrite after_nil, IH by done.
    simpl. by rewrite <- app_assoc.
Qed.

Lemma foldM_add_argument_raise (o : Options) (xs : list string) (h : Heap) :
  "" ∈ xs →
  foldM add_argument o xs h =
  {| res := Raise (ValueError "argument can not be null"); heap := h;
     log := [] |}.
Proof.
  revert o. induction xs as [|x xs IH]; intros o Hxs; simpl.
  - by apply elem_of_nil in Hxs.
  - destruct x as [|c x].
    + by erewrite bind_raise by reflexivity.
    + apply elem_of_cons in Hxs as [?|Hxs]; [done|].
      erewrite bind_ok by reflexivity. by rewrite after_nil, IH.
Qed.

Lemma list_append_run (l : loc) (x : string) (ls : gmap loc (list string))
    (os : gmap loc (gmap string value)) (xs : list string) :
  ls !! l = Some xs →
  list_append l x {| lists := ls; objects := os |} =
  {| res := Ok tt;
     heap := {| lists := <[l:=xs ++ [x]]> ls; objects := os |};
     log := [] |}.
Proof. intros Hl. unfold list_append. simpl. by rewrite Hl. Qed.

Lemma set_of_list_run (l : loc) (ls : gmap loc (list string))
    (os : gmap loc (gmap string value)) (xs : list string) :
  ls !! l = Some xs →
  set_of_list l {| lists := ls; objects := os |} =
  {| res := Ok (list_to_set xs);
     heap := {| lists := ls; objects := os |};
     log := [] |}.
Proof. intros Hl. unfold set_of_list. simpl. by rewrite Hl. Qed.

Lemma when_append_run (b : bool) (l : loc) (x : string)
    (ls : gmap loc (list string)) (os : gmap loc (gmap string value))
    (xs : list string) :
  when b (list_append l x) {| lists := <[l:=xs]> ls; objects := os |} =
  {| res := Ok tt;
     heap := {| lists := <[l:=apply_rule xs (b, x)]> ls; objects := os |};
     log := [] |}.
Proof.
  unfold apply_rule. destruct b; simpl; [|done].
  erewrite list_append_run by apply lookup_insert_eq.
  by rewrite insert_insert_eq.
Qed.

Lemma setattr_run (self : loc) (name : string) (v : value)
    (ls : gmap loc (list string)) (os : gmap loc (gmap string value))
    (attrs : gmap string value) :
  setattr self name v {| lists := ls; objects := <[self:=attrs]> os |} =
  {| res := Ok tt;
     heap := {| lists := ls; objects := <[self:=<[name:=v]> attrs]> os |};
     log := [] |}.
Proof.
  unfold setattr. simpl. rewrite lookup_insert_eq.
  by rewrite insert_insert_eq.
Qed.

Lemma Chrome_ok (w : World) (path : string) (o : Options) (h : Heap)
    (args : list string) (s : Session) :
  arguments o = args →
  webdriver_Chrome w path args = inr s →
  Chrome w path o h =
  {| res := Ok s; heap := h; log := [EvChrome path args] |}.
Proof.
  intros <- Hc. unfold Chrome, bind, emit. simpl. by rewrite Hc.
Qed.

Lemma Chrome_fail (w : World) (path : string) (o : Options) (h : Heap)
    (args : list string) (msg : string) :
  arguments o = args →
  webdriver_Chrome w path args = inl msg →
  Chrome w path o h =
  {| res := Raise (WebDriverException msg); heap := h;
     log := [EvChrome path args] |}.
Proof.
  intros <- Hc. unfold Chrome, bind, emit. simpl. by rewrite Hc.
Qed.

Lemma empty_in_apply_rules (w : World) (xs : list string) :
  "" ∈ apply_rules (rules_of w) xs ↔ "" ∈ xs.
Proof.
  revert xs.
  assert (∀ (rs : list rule) (xs : list string),
            Forall (λ r, r.2 ≠ "") rs →
            "" ∈ foldl apply_rule xs rs ↔ "" ∈ xs) as Hgen.
  { induction rs as [|[b y] rs IH]; intros xs Hrs; simpl; [done|].
    apply Forall_cons in Hrs as [Hy Hrs]. rewrite IH by done.
    unfold apply_rule. destruct b; simpl; [|done].
    rewrite elem_of_app, list_elem_of_singleton. simpl in Hy.
    split; [intros [?|?]; [done|congruence]|auto]. }
  intros xs. apply Hgen. unfold rules_of, launch_rules.
  repeat (apply Forall_cons; split; [simpl; discriminate|]).
  by apply Forall_nil.
Qed.

(** [__init__] from the point where the list to extend is known. *)
Lemma init_run (w : World) (self l : loc) (p : Params)
    (ls : gmap loc (list string)) (os : gmap loc (gmap string value))
    (attrs : gmap string value) (xs : list string) (h : Heap) :
  IN_WINDOWS w || bool_decide (is_Some (os_geteuid w)) = true →
  match webdriver_options p with
  | None => list_new default_options
  | Some l' => ret l'
  end h = {| res := Ok l;
             heap := {| lists := ls; objects := <[self:=attrs]> os |};
             log := [] |} →
  ls !! l = Some xs →
  __init__ w self p h =
  let acc := apply_rules (rules_of w) xs in
  let opts := elements (list_to_set acc : gset string) in
  let t := if IN_WINDOWS w then [] else [EvGeteuid] in
  if bool_decide ("" ∉ xs) then
    match webdriver_Chrome w (binary_path w) opts with
    | inl msg =>
        {| res := Raise (WebDriverException msg);
           heap := {| lists := <[l:=acc]> ls;
                      objects := <[self:=attrs]> os |};
           log := t ++ [EvChrome (binary_path w) opts] |}
    | inr s =>
        {| res := Ok tt;
           heap := {| lists := <[l:=acc]> ls;
                      objects := <[self:=stored_attrs s p attrs]> os |};
           log := t ++ [EvChrome (binary_path w) opts] |}
    end
  else
    {| res := Raise (ValueError "argument can not be null");
       heap := {| lists := <[l:=acc]> ls; objects := <[self:=attrs]> os |};
       log := t |}.
Proof.
  intros Henv Hopt Hl. unfold __init__.
  erewrite bind_ok by (by apply IS_ROOT_run).
  erewrite bind_ok by apply Hopt. rewrite after_nil.
  erewrite bind_ok by (by apply list_append_run). rewrite after_nil.
  do 3 (erewrite bind_ok by apply when_append_run; rewrite after_nil).
  change (apply_rule (apply_rule (apply_rule (xs ++ _) _) _) _)
    with (apply_rules (rules_of w) xs).
  set (acc := apply_rules (rules_of w) xs).
  erewrite bind_ok by apply set_of_list_run, lookup_insert_eq.
  rewrite after_nil. cbv zeta.
  set (opts := elements (list_to_set acc)).
  assert ("" ∈ opts ↔ "" ∈ xs) as Hempty.
  { unfold opts, acc.
    by rewrite elem_of_elements, elem_of_list_to_set, empty_in_apply_rules. }
  destruct (bool_decide ("" ∉ xs)) eqn:Hdec.
  - apply bool_decide_eq_true in Hdec. rewrite <- Hempty in Hdec.
    erewrite bind_ok by (by apply foldM_add_argument_ok).
    rewrite after_nil. simpl arguments.
    destruct (webdriver_Chrome w (binary_path w) opts) as [msg|s] eqn:Hc.
    + erewrite bind_raise by (by eapply Chrome_fail). unfold after.
      by destruct (IN_WINDOWS w).
    + erewrite bind_ok by (by eapply Chrome_ok).
      do 10 (erewrite bind_ok by apply setattr_run; rewrite after_nil).
      rewrite setattr_run. unfold after. simpl.
      by destruct (IN_WINDOWS w).
  - apply bool_decide_eq_false in Hdec. apply dec_stable in Hdec.
    rewrite <- Hempty in Hdec.
    erewrite bind_raise by (by apply foldM_add_argument_raise).
    unfold after. simpl. by rewrite ?app_nil_r.
Qed.

Lemma object_new_run (h : Heap) :
  object_new h =
  {| res := Ok (fresh (dom (objects h)));
     heap := {| lists := lists h;
                objects := <[fresh (dom (objects h)):=∅]> (objects h) |};
     log := [] |}.
Proof. reflexivity. Qed.

(** [new] up to the body of [__init__]: the instance is allocated and
    carries [_component_config]. *)
Lemma new_run (w : World) (a : CallArgs) (h : Heap) :
  new w a h =
  let self := fresh (dom (objects h)) in
  bind (__init__ w self (with_defaults a)) (λ _, ret self)
    {| lists := lists h; objects := <[self:=bare_attrs a]> (objects h) |}.
Proof.
  unfold new. erewrite bind_ok by apply object_new_run. rewrite after_nil.
  cbv zeta. unfold bind at 1, wrapped_init.
  erewrite (bind_ok (setattr _ _ _)) by apply setattr_run.
  rewrite after_nil, insert_empty. reflexivity.
Qed.

Lemma new_well_formed (w : World) (a : CallArgs) (h : Heap) :
  well_formed w a h = true → new w a h = construction w a h.
Proof.
  unfold well_formed. intros [Henv Hl]%andb_true_iff.
  rewrite new_run. cbv zeta. unfold construction, bind.
  destruct (arg_webdriver_options a) as [l|] eqn:Hopt.
  - apply bool_decide_eq_true in Hl as [xs Hxs].
    assert (target a h = (l, xs)) as Ht
      by (unfold target; by rewrite Hopt, Hxs).
    assert (no_empty_option a h = bool_decide ("" ∉ xs)) as Hne
      by (unfold no_empty_option; by rewrite Ht).
    rewrite Hne, Ht. cbn [fst snd].
    erewrite init_run;
      [| done | cbn [webdriver_options with_defaults]; rewrite Hopt;
                reflexivity | done].
    cbv zeta. destruct (bool_decide ("" ∉ xs)); [|done].
    destruct (webdriver_Chrome _ _ _); [done|].
    unfold after; simpl. by rewrite app_nil_r.
  - assert (target a h = (fresh (dom (lists h)), default_options)) as Ht
      by (unfold target; by rewrite Hopt).
    assert (no_empty_option a h = bool_decide ("" ∉ default_options))
      as Hne by (unfold no_empty_option; by rewrite Ht).
    rewrite Hne, Ht. cbn [fst snd].
    erewrite init_run;
      [| done | cbn [webdriver_options with_defaults]; rewrite Hopt;
                reflexivity | apply lookup_insert_eq].
    cbv zeta. rewrite insert_insert_eq.
    destruct (bool_decide ("" ∉ default_options)); [|done].
    destruct (webdriver_Chrome _ _ _); [done|].
    unfold after; simpl. by rewrite app_nil_r.
Qed.

(** Ill-formed inputs never yield an instance, start no browser and set
    no attribute of [__init__]. *)
Lemma new_ill_formed (w : World) (a : CallArgs) (h : Heap) :
  well_formed w a h = false →
  ∃ e, res (new w a h) = Raise e ∧
       registered (new w a h) = None ∧
       objects (heap (new w a h)) =
         <[fresh (dom (objects h)):=bare_attrs a]> (objects h).
Proof.
  unfold well_formed. intros Hwf. rewrite new_run. cbv zeta.
  unfold bind, __init__.
  destruct (IN_WINDOWS w || bool_decide (is_Some (os_geteuid w))) eqn:Henv.
  - erewrite bind_ok by (by apply IS_ROOT_run).
    simpl in Hwf. cbn [webdriver_options with_defaults].
    destruct (arg_webdriver_options a) as [l|]; [|done].
    apply bool_decide_eq_false in Hwf.
    apply eq_None_not_Some in Hwf.
    erewrite (bind_ok (ret l)) by reflexivity. rewrite after_nil.
    erewrite (bind_raise (list_append l _))
      by (unfold list_append; simpl; rewrite Hwf; reflexivity).
    unfold after, registered. simpl. eexists. split_and!; try done.
    by destruct (IN_WINDOWS w).
  - apply orb_false_iff in Henv as [Hwin Hg].
    apply bool_decide_eq_false in Hg. apply eq_None_not_Some in Hg.
    erewrite (bind_raise (IS_ROOT w))
      by (unfold IS_ROOT, geteuid, bind, emit; rewrite Hwin, Hg;
          reflexivity).
    unfold registered. simpl. eauto.
Qed.

Lemma new_returns_well_formed (w : World) (a : CallArgs) (h : Heap)
    (self : loc) :
  res (new w a h) = Ok self → well_formed w a h = true.
Proof.
  intros Hres. destruct (well_formed w a h) eqn:Hwf; [done|].
  apply new_ill_formed in Hwf as (e & He & _). congruence.
Qed.

(** The value of [IS_ROOT], when it has one, does not depend on the heap. *)
Lemma IS_ROOT_res (w : World) (h : Heap) (b : bool) :
  res (IS_ROOT w h) = Ok b →
  IN_WINDOWS w || bool_decide (is_Some (os_geteuid w)) = true ∧
  superuser w = b.
Proof.
  intros Hres.
  destruct (IN_WINDOWS w || bool_decide (is_Some (os_geteuid w))) eqn:Henv.
  - rewrite IS_ROOT_run in Hres by done. simpl in Hres. by inversion Hres.
  - apply orb_false_iff in Henv as [Hwin Hg].
    apply bool_decide_eq_false in Hg. apply eq_None_not_Some in Hg.
    unfold IS_ROOT, geteuid, bind, emit in Hres.
    rewrite Hwin, Hg in Hres. discriminate.
Qed.

(** ** The rules *)

Lemma elem_of_apply_rules (x : string) (rs : list rule) (base : list string) :
  x ∈ apply_rules rs base ↔ x ∈ base ∨ (true, x) ∈ rs.
Proof.
  revert base. induction rs as [|[b y] rs IH]; intros base.
  - simpl. rewrite elem_of_nil. tauto.
  - change (apply_rules ((b, y) :: rs) base)
      with (apply_rules rs (apply_rule base (b, y))).
    rewrite IH, elem_of_cons. unfold apply_rule. destruct b; simpl.
    + rewrite elem_of_app, list_elem_of_singleton.
      split; [intros [[?| ->]|?]|intros [?|[[= ->]|?]]]; auto.
    + split; [intros [?|?]|intros [?|[?|?]]]; auto. discriminate.
Qed.

Lemma apply_rules_Permutation (rs rs' : list rule) (base : list string) :
  rs ≡ₚ rs' →
  list_to_set (apply_rules rs base) =@{gset string}
  list_to_set (apply_rules rs' base).
Proof.
  intros Hp. apply set_eq. intros x.
  rewrite !elem_of_list_to_set, !elem_of_apply_rules.
  by rewrite Hp.
Qed.

(** ** The closed form *)

Lemma registered_construction (w : World) (a : CallArgs) (h : Heap) :
  registered (construction w a h) =
  if no_empty_option a h then
    Some (elements (list_to_set (apply_rules (rules_of w) (target a h).2)
                    : gset string))
  else None.
Proof.
  unfold registered, construction. destruct (no_empty_option a h).
  - destruct (webdriver_Chrome _ _ _); simpl; by destruct (IN_WINDOWS w).
  - simpl. by destruct (IN_WINDOWS w).
Qed.

Lemma lists_construction (w : World) (a : CallArgs) (h : Heap) :
  lists (heap (construction w a h)) =
  <[(target a h).1 := apply_rules (rules_of w) (target a h).2]> (lists h).
Proof.
  unfold construction. destruct (no_empty_option a h); [|done].
  by destruct (webdriver_Chrome _ _ _).
Qed.

Lemma log_construction (w : World) (a : CallArgs) (h : Heap) :
  no_empty_option a h = true →
  log (construction w a h) =
  (if IN_WINDOWS w then [] else [EvGeteuid]) ++
  [EvChrome (binary_path w)
     (elements (list_to_set (apply_rules (rules_of w) (target a h).2)
                : gset string))].
Proof.
  intros Hne. unfold construction. rewrite Hne.
  by destruct (webdriver_Chrome _ _ _).
Qed.

(** A call that reached the browser was well-formed, had no empty option
    and passed the elements of the accumulated list. *)
Lemma registered_new_inv (w : World) (a : CallArgs) (h : Heap)
    (opts : list string) :
  registered (new w a h) = Some opts →
  well_formed w a h = true ∧ no_empty_option a h = true ∧
  opts = elements (list_to_set (apply_rules (rules_of w) (target a h).2)
                   : gset string).
Proof.
  intros Hreg. destruct (well_formed w a h) eqn:Hwf.
  - rewrite new_well_formed, registered_construction in Hreg by done.
    destruct (no_empty_option a h); [|done]. by inversion Hreg.
  - apply new_ill_formed in Hwf as (e & _ & Hnone & _). congruence.
Qed.

(** A well-formed call without an empty option reaches the browser. *)
Lemma registered_new_accepted (w : World) (a : CallArgs) (h : Heap) :
  well_formed w a h = true →
  no_empty_option a h = true →
  registered (new w a h) =
  Some (elements (list_to_set (apply_rules (rules_of w) (target a h).2)
                  : gset string)).
Proof.
  intros Hwf Hne. by rewrite new_well_formed, registered_construction, Hne.
Qed.

Lemma elem_of_rules_of (w : World) (x : string) :
  (true, x) ∈ rules_of w ↔
  x = "--headless" ∨
  (x = "--no-sandbox" ∧ superuser w || IN_WINDOWS w || IN_COLAB w = true) ∨
  (x = "--remote-debugging-port=9222" ∧ superuser w || IN_WINDOWS w = true) ∨
  (x = "--disable-dev-shm-usage" ∧ IN_COLAB w || IN_AZUREML w = true).
Proof.
  unfold rules_of, launch_rules. rewrite !elem_of_cons, elem_of_nil.
  split.
  - intros [[= ->]|[[= <- ->]|[[= <- ->]|[[= <- ->]|[]]]]]; auto.
  - intros [->|[[-> <-]|[[-> <-]|[-> <-]]]]; auto.
Qed.

(** Membership in the arguments of a call that reached the browser. *)
Lemma elem_of_registered (w : World) (a : CallArgs) (h : Heap)
    (opts : list string) (x : string) :
  registered (new w a h) = Some opts →
  x ∈ opts ↔ x ∈ (target a h).2 ∨ (true, x) ∈ rules_of w.
Proof.
  intros (_ & _ & ->)%registered_new_inv.
  rewrite elem_of_elements, elem_of_list_to_set.
  exact (elem_of_apply_rules x (rules_of w) (target a h).2).
Qed.

Lemma well_formed_supplied (w : World) (a : CallArgs) (h : Heap) (l : loc)
    (xs : list string) (b : bool) :
  arg_webdriver_options a = Some l →
  lists h !! l = Some xs →
  res (IS_ROOT w h) = Ok b →
  well_formed w a h = true ∧ target a h = (l, xs) ∧ superuser w = b.
Proof.
  intros Hopt Hxs [Henv Hb]%IS_ROOT_res.
  unfold well_formed, target. by rewrite Hopt, Hxs, Henv.
Qed.

Lemma well_formed_default (w : World) (a : CallArgs) (h : Heap) (b : bool) :
  arg_webdriver_options a = None →
  res (IS_ROOT w h) = Ok b →
  well_formed w a h = true ∧ (target a h).2 = default_options ∧
  superuser w = b.
Proof.
  intros Hopt [Henv Hb]%IS_ROOT_res.
  unfold well_formed, target. by rewrite Hopt, Henv.
Qed.

(** ** The launch options *)

(** C1: whatever list the caller supplies, and also without one, and in
    every environment, the launch arguments registered on the browser
    session contain ["--headless"]; and a browser session is started with
    registered arguments for every well-formed call whose options Selenium
    accepts. *)
Theorem headless_always_registered (w : World) (a : CallArgs) (h : Heap) :
  (∀ opts, registered (new w a h) = Some opts → "--headless" ∈ opts) ∧
  (well_formed w a h = true → no_empty_option a h = true →
   is_Some (registered (new w a h))).
Proof.
  split.
  - intros opts Hreg. rewrite (elem_of_registered w a h opts) by done.
    right. apply list_elem_of_here.
  - intros Hwf Hne. rewrite registered_new_accepted by done. eauto.
Qed.

Lemma headless_always_registered_witness :
  ∃ opts, registered (new colab_user caller_args caller_heap) = Some opts ∧
          "--headless" ∈ opts.
Proof.
  destruct (headless_always_registered colab_user caller_args caller_heap)
    as [Hin Hreg].
  destruct (Hreg eq_refl eq_refl) as [opts Hopts].
  exists opts. split; [exact Hopts|exact (Hin opts Hopts)].
Defined.

(** C3: when [IS_ROOT] is true and [IN_WINDOWS] is false, the registered
    launch arguments contain both ["--no-sandbox"] and
    ["--remote-debugging-port=9222"], for every list of the caller; and
    arguments are registered for every well-formed call whose options
    Selenium accepts. *)
Theorem root_registers_sandbox_and_port (w : World) (a : CallArgs) (h : Heap) :
  res (IS_ROOT w h) = Ok true →
  IN_WINDOWS w = false →
  (∀ opts, registered (new w a h) = Some opts →
           "--no-sandbox" ∈ opts ∧ "--remote-debugging-port=9222" ∈ opts) ∧
  (well_formed w a h = true → no_empty_option a h = true →
   is_Some (registered (new w a h))).
Proof.
  intros [_ Hroot]%IS_ROOT_res Hwin. split.
  - intros opts Hreg. rewrite !(elem_of_registered w a h opts) by done.
    rewrite !elem_of_rules_of, Hroot. simpl. split; right; auto.
  - intros Hwf Hne. rewrite registered_new_accepted by done. eauto.
Qed.

Lemma root_registers_sandbox_and_port_witness :
  ∃ opts, registered (new linux_root caller_args caller_heap) = Some opts ∧
          "--no-sandbox" ∈ opts ∧ "--remote-debugging-port=9222" ∈ opts.
Proof.
  destruct (root_registers_sandbox_and_port linux_root caller_args
              caller_heap eq_refl eq_refl) as [Hin Hreg].
  destruct (Hreg eq_refl eq_refl) as [opts Hopts].
  exists opts. split; [exact Hopts|exact (Hin opts Hopts)].
Defined.

(** C4: in a notebook, neither root nor on Windows, with a caller's list
    that does not hold ["--remote-debugging-port=9222"], the registered
    launch arguments contain ["--no-sandbox"] and
    ["--disable-dev-shm-usage"] and do not contain
    ["--remote-debugging-port=9222"]; and arguments are registered whenever
    the list holds no empty string. *)
Theorem notebook_registers_no_port (w : World) (a : CallArgs) (h : Heap)
    (l : loc) (xs : list string) :
  arg_webdriver_options a = Some l →
  lists h !! l = Some xs →
  "--remote-debugging-port=9222" ∉ xs →
  IN_COLAB w = true →
  res (IS_ROOT w h) = Ok false →
  IN_WINDOWS w = false →
  (∀ opts, registered (new w a h) = Some opts →
           "--no-sandbox" ∈ opts ∧ "--disable-dev-shm-usage" ∈ opts ∧
           "--remote-debugging-port=9222" ∉ opts) ∧
  ("" ∉ xs → is_Some (registered (new w a h))).
Proof.
  intros Hopt Hxs Hport Hcolab Hroot Hwin.
  destruct (well_formed_supplied w a h l xs false) as (Hwf & Ht & Hsu);
    [done..|].
  split.
  - intros opts Hreg. rewrite !(elem_of_registered w a h opts) by done.
    rewrite !elem_of_rules_of, Ht, Hsu, Hwin, Hcolab. simpl.
    split_and!; [right; auto..|].
    intros [?|[?|[[? _]|[[_ ?]|[? _]]]]]; done.
  - intros Hne. rewrite registered_new_accepted; [eauto|done|].
    unfold no_empty_option. rewrite Ht. by apply bool_decide_eq_true.
Qed.

Lemma notebook_registers_no_port_witness :
  ∃ opts, registered (new colab_user caller_args caller_heap) = Some opts ∧
          "--no-sandbox" ∈ opts ∧ "--disable-dev-shm-usage" ∈ opts ∧
          "--remote-debugging-port=9222" ∉ opts.
Proof.
  assert ("--remote-debugging-port=9222" ∉ ["--window-size=800,600"])
    as Hport by (apply (bool_decide_unpack _); vm_compute; exact I).
  assert ("" ∉ ["--window-size=800,600"])
    as Hne by (apply (bool_decide_unpack _); vm_compute; exact I).
  destruct (notebook_registers_no_port colab_user caller_args caller_heap
              1%positive ["--window-size=800,600"]
              eq_refl eq_refl Hport eq_refl eq_refl eq_refl) as [Hin Hreg].
  destruct (Hreg Hne) as [opts Hopts].
  exists opts. split; [exact Hopts|exact (Hin opts Hopts)].
Defined.

Lemma NoDup_default_options : NoDup default_options.
Proof. apply (bool_decide_unpack _). vm_compute. exact I. Qed.

Lemma no_empty_option_default (a : CallArgs) (h : Heap) :
  arg_webdriver_options a = None → no_empty_option a h = true.
Proof.
  intros Hopt. unfold no_empty_option, target. by rewrite Hopt.
Qed.

(** C2, as stated, fails: called without options by root on Linux, the
    constructor registers six launch arguments, two of them outside the
    four defaults. *)
Lemma no_options_as_root_registers_six :
  arg_webdriver_options no_args = None ∧
  well_formed linux_root no_args empty_heap = true ∧
  ∃ opts, registered (new linux_root no_args empty_heap) = Some opts ∧
          length opts = 6 ∧
          "--no-sandbox" ∈ opts ∧ ("--no-sandbox" ∉ default_options) ∧
          ¬ (opts ≡ₚ default_options).
Proof.
  split; [reflexivity|]. split; [reflexivity|].
  eexists. split; [vm_compute; reflexivity|].
  split; [reflexivity|].
  split; [apply (bool_decide_unpack _); vm_compute; exact I|].
  split; [apply (bool_decide_unpack _); vm_compute; exact I|].
  intros Hp. apply Permutation_length in Hp. discriminate.
Qed.

(** C2, amended: without options from the caller, and with [IS_ROOT],
    [IN_WINDOWS] and [IN_COLAB] all false, the registered launch arguments
    are exactly the four default flags, each once. *)
Theorem no_options_registers_defaults (w : World) (a : CallArgs) (h : Heap) :
  arg_webdriver_options a = None →
  res (IS_ROOT w h) = Ok false →
  IN_WINDOWS w = false →
  IN_COLAB w = false →
  ∃ opts, registered (new w a h) = Some opts ∧ opts ≡ₚ default_options.
Proof.
  intros Hopt Hroot Hwin Hcolab.
  destruct (well_formed_default w a h false) as (Hwf & Ht & Hsu); [done..|].
  rewrite registered_new_accepted
    by (done || by apply no_empty_option_default).
  eexists. split; [reflexivity|].
  rewrite <- (elements_list_to_set (C:=gset string) default_options)
    by apply NoDup_default_options.
  f_equiv. intros x.
  rewrite !elem_of_list_to_set, (elem_of_apply_rules _ (rules_of w)), Ht.
  unfold rules_of, launch_rules. rewrite Hsu, Hwin, Hcolab. simpl.
  rewrite !elem_of_cons, elem_of_nil. unfold default_options.
  rewrite !elem_of_cons, elem_of_nil.
  split; [|tauto].
  intros [?|[[= ->]|[?|[?|[[= _ ->]|[]]]]]]; try discriminate; tauto.
Qed.

Lemma no_options_registers_defaults_witness :
  ∃ opts, registered (new linux_user no_args empty_heap) = Some opts ∧
          opts ≡ₚ default_options.
Proof.
  apply (no_options_registers_defaults linux_user no_args empty_heap);
    reflexivity.
Defined.

(** C8: the registered launch arguments hold no entry twice, and applying
    the append rules of [__init__] in any other order to the same list in
    the same environment gives the same set of arguments; arguments are
    registered for every well-formed call whose options Selenium accepts. *)
Theorem registered_set_order_independent (w : World) (a : CallArgs) (h : Heap) :
  well_formed w a h = true →
  lists (heap (new w a h)) !! (target a h).1 =
    Some (apply_rules (rules_of w) (target a h).2) ∧
  (∀ opts,
     registered (new w a h) = Some opts →
     NoDup opts ∧
     ∀ rs, rs ≡ₚ rules_of w →
           list_to_set (apply_rules rs (target a h).2) =@{gset string}
           list_to_set opts) ∧
  (no_empty_option a h = true → is_Some (registered (new w a h))).
Proof.
  intros Hwf. split_and!.
  - rewrite new_well_formed, lists_construction by done.
    apply lookup_insert_eq.
  - intros opts (_ & _ & ->)%registered_new_inv.
    split; [apply NoDup_elements|].
    intros rs Hp. rewrite list_to_set_elements_L.
    by apply apply_rules_Permutation.
  - intros Hne. rewrite registered_new_accepted by done. eauto.
Qed.

Lemma registered_set_order_independent_witness :
  ∃ opts,
    registered (new linux_root caller_args caller_heap) = Some opts ∧
    NoDup opts ∧
    ∀ rs, rs ≡ₚ rules_of linux_root →
          list_to_set (apply_rules rs (target caller_args caller_heap).2)
          =@{gset string} list_to_set opts.
Proof.
  destruct (registered_set_order_independent linux_root caller_args
              caller_heap eq_refl) as (_ & Hin & Hreg).
  destruct (Hreg eq_refl) as [opts Hopts].
  exists opts. split; [exact Hopts|exact (Hin opts Hopts)].
Defined.

(** The flags the environment adds after ["--headless"]. *)
Lemma apply_rules_rules_of (w : World) (xs : list string) :
  apply_rules (rules_of w) xs =
  xs ++ "--headless" :: apply_rules (tail (rules_of w)) [].
Proof.
  unfold rules_of, launch_rules, apply_rules, apply_rule. simpl.
  destruct (superuser w), (IN_WINDOWS w), (IN_COLAB w), (IN_AZUREML w);
    simpl; by rewrite <- ?app_assoc.
Qed.

(** C10: a list supplied by the caller is extended in place: after the
    call the caller's own list holds what it held before, then
    ["--headless"], then the flags the environment calls for. *)
Theorem caller_list_mutated (w : World) (a : CallArgs) (h : Heap)
    (l : loc) (xs : list string) :
  well_formed w a h = true →
  arg_webdriver_options a = Some l →
  lists h !! l = Some xs →
  lists (heap (new w a h)) !! l =
    Some (xs ++ "--headless" :: apply_rules (tail (rules_of w)) []).
Proof.
  intros Hwf Hopt Hxs. rewrite new_well_formed by done.
  rewrite <- apply_rules_rules_of, lists_construction.
  unfold target. rewrite Hopt, Hxs. apply lookup_insert_eq.
Qed.

Lemma caller_list_mutated_witness :
  lists (heap (new linux_root caller_args caller_heap)) !! 1%positive =
    Some (["--window-size=800,600"] ++
          "--headless" :: apply_rules (tail (rules_of linux_root)) []).
Proof.
  apply (caller_list_mutated linux_root caller_args caller_heap);
    reflexivity.
Defined.

(** ** The privilege lookup *)

Create HintDb lookup.

Lemma no_lookup_ret {A} (a : A) : no_lookup (ret a).
Proof. intros h. apply not_elem_of_nil. Qed.

Lemma no_lookup_raise {A} (e : exn) : no_lookup (raise (A:=A) e).
Proof. intros h. apply not_elem_of_nil. Qed.

Lemma no_lookup_bind {A B} (m : M A) (k : A → M B) :
  no_lookup m → (∀ a, no_lookup (k a)) → no_lookup (bind m k).
Proof.
  intros Hm Hk h. unfold bind.
  destruct (res (m h)) as [a|e] eqn:Hres; simpl.
  - rewrite elem_of_app. intros [Hin|Hin]; [by apply (Hm h)|].
    by apply (Hk a (heap (m h))).
  - apply Hm.
Qed.

Lemma no_lookup_when (b : bool) (m : M unit) :
  no_lookup m → no_lookup (when b m).
Proof. destruct b; [done|]. intros _. apply no_lookup_ret. Qed.

Lemma no_lookup_foldM {A B} (f : B → A → M B) (b : B) (xs : list A) :
  (∀ b' x, no_lookup (f b' x)) → no_lookup (foldM f b xs).
Proof.
  intros Hf. revert b. induction xs as [|x xs IH]; intros b; simpl.
  - apply no_lookup_ret.
  - apply no_lookup_bind; [apply Hf|apply IH].
Qed.

Lemma no_lookup_add_argument (o : Options) (a : string) :
  no_lookup (add_argument o a).
Proof. destruct a; [apply no_lookup_raise|apply no_lookup_ret]. Qed.

Lemma no_lookup_list_new (xs : list string) : no_lookup (list_new xs).
Proof. intros h. apply not_elem_of_nil. Qed.

Lemma no_lookup_list_append (l : loc) (x : string) :
  no_lookup (list_append l x).
Proof.
  intros h. unfold list_append.
  destruct (lists h !! l); apply not_elem_of_nil.
Qed.

Lemma no_lookup_set_of_list (l : loc) : no_lookup (set_of_list l).
Proof.
  intros h. unfold set_of_list.
  destruct (lists h !! l); apply not_elem_of_nil.
Qed.

Lemma no_lookup_object_new : no_lookup object_new.
Proof. intros h. apply not_elem_of_nil. Qed.

Lemma no_lookup_setattr (self : loc) (name : string) (v : value) :
  no_lookup (setattr self name v).
Proof.
  intros h. unfold setattr.
  destruct (objects h !! self); apply not_elem_of_nil.
Qed.

Lemma no_lookup_Chrome (w : World) (path : string) (o : Options) :
  no_lookup (Chrome w path o).
Proof.
  intros h. unfold Chrome, bind, emit. simpl.
  destruct (webdriver_Chrome _ _ _); simpl;
    rewrite elem_of_cons, elem_of_nil; intros [?|[]]; discriminate.
Qed.

Lemma no_lookup_IS_ROOT (w : World) :
  IN_WINDOWS w = true → no_lookup (IS_ROOT w).
Proof. intros Hwin. unfold IS_ROOT. rewrite Hwin. apply no_lookup_ret. Qed.

#[local] Hint Resolve no_lookup_ret no_lookup_raise no_lookup_when
  no_lookup_list_new no_lookup_list_append no_lookup_set_of_list
  no_lookup_object_new no_lookup_setattr no_lookup_Chrome
  no_lookup_IS_ROOT no_lookup_foldM no_lookup_add_argument : lookup.

Ltac no_lookup_steps :=
  repeat first
    [ solve [auto with lookup]
    | match goal with |- no_lookup (match ?o with _ => _ end) =>
        destruct o end
    | apply no_lookup_bind; [|intros ?] ].

Lemma no_lookup_init (w : World) (self : loc) (p : Params) :
  IN_WINDOWS w = true → no_lookup (__init__ w self p).
Proof. intros Hwin. unfold __init__. cbv zeta. no_lookup_steps. Qed.

(** C5: on Windows ([sys.platform] is ["win32"] or ["cygwin"]) the
    construction never evaluates [os.geteuid()], and [IS_ROOT] is false. *)
Theorem no_privilege_lookup_on_windows (w : World) (a : CallArgs) (h : Heap) :
  IN_WINDOWS w = true →
  (EvGeteuid ∉ log (new w a h)) ∧
  IS_ROOT w h = {| res := Ok false; heap := h; log := [] |}.
Proof.
  intros Hwin. split.
  - revert h. change (no_lookup (new w a)). unfold new.
    apply no_lookup_bind; [auto with lookup|intros self].
    apply no_lookup_bind; [|auto with lookup].
    apply no_lookup_bind; [auto with lookup|intros _].
    by apply no_lookup_init.
  - unfold IS_ROOT. by rewrite Hwin.
Qed.

Lemma no_privilege_lookup_on_windows_witness :
  IN_WINDOWS windows_host = true ∧
  (EvGeteuid ∉ log (new windows_host caller_args caller_heap)) ∧
  IS_ROOT windows_host caller_heap =
    {| res := Ok false; heap := caller_heap; log := [] |}.
Proof.
  split; [reflexivity|].
  apply (no_privilege_lookup_on_windows windows_host caller_args caller_heap).
  reflexivity.
Defined.

(** ** The instance *)

Ltac lookup_attr :=
  unfold instance_attrs, stored_attrs, bare_attrs;
  repeat first [ apply lookup_insert_eq
               | rewrite lookup_insert_ne by discriminate ].

Lemma instance_attrs_driver (s : Session) (a : CallArgs) :
  instance_attrs s a !! "driver" = Some (VDriver s).
Proof. lookup_attr. Qed.

Lemma instance_attrs_config (s : Session) (a : CallArgs) :
  let p := with_defaults a in
  instance_attrs s a !! "urls" = Some (urls p) ∧
  instance_attrs s a !! "crawler_depth" = Some (crawler_depth p) ∧
  instance_attrs s a !! "filter_urls" = Some (filter_urls p) ∧
  instance_attrs s a !! "id_hash_keys" = Some (id_hash_keys p) ∧
  instance_attrs s a !! "extract_hidden_text" =
    Some (extract_hidden_text p) ∧
  instance_attrs s a !! "loading_wait_time" = Some (loading_wait_time p) ∧
  instance_attrs s a !! "output_dir" = Some (output_dir p) ∧
  instance_attrs s a !! "overwrite_existing_files" =
    Some (overwrite_existing_files p) ∧
  instance_attrs s a !! "file_path_meta_field_name" =
    Some (file_path_meta_field_name p) ∧
  instance_attrs s a !! "crawler_naming_function" =
    Some (crawler_naming_function p).
Proof. cbv zeta. split_and!; lookup_attr. Qed.

Lemma instance_attrs_complete (s : Session) (a : CallArgs) (f : string) :
  f ∈ config_fields → is_Some (instance_attrs s a !! f).
Proof.
  pose proof (instance_attrs_config s a) as Hc. cbv zeta in Hc.
  destruct Hc as (?&?&?&?&?&?&?&?&?&?).
  unfold config_fields. rewrite !elem_of_cons, elem_of_nil.
  intros Hf. repeat (destruct Hf as [->|Hf]; [eauto|]). done.
Qed.

Lemma bare_attrs_lookup (a : CallArgs) (f : string) :
  f ∈ "driver" :: config_fields → bare_attrs a !! f = None.
Proof.
  unfold config_fields. rewrite !elem_of_cons, elem_of_nil.
  intros Hf. unfold bare_attrs.
  repeat (destruct Hf as [->|Hf]; [by apply lookup_singleton_ne|]). done.
Qed.

(** Whatever the exception, the allocated instance is left with
    [_component_config] only. *)
Lemma new_raise_objects (w : World) (a : CallArgs) (h : Heap) (e : exn) :
  res (new w a h) = Raise e →
  objects (heap (new w a h)) =
  <[fresh (dom (objects h)):=bare_attrs a]> (objects h).
Proof.
  intros Hres. destruct (well_formed w a h) eqn:Hwf.
  - rewrite new_well_formed in * by done. revert Hres.
    unfold construction. destruct (no_empty_option a h); [|done].
    by destruct (webdriver_Chrome _ _ _).
  - by apply new_ill_formed in Hwf as (_ & _ & _ & ?).
Qed.

(** C6: construction is all or nothing.  When [webdriver.Chrome] raises,
    its exception reaches the caller as it is; whenever an exception ends
    the call no instance is returned and the instance that was allocated
    has neither [driver] nor a configuration attribute; when
    [webdriver.Chrome] returns a session, the caller gets an instance that
    carries the session and all ten configuration attributes.  The browser
    start is reached by every well-formed call whose options Selenium
    accepts. *)
Theorem construction_atomic (w : World) (a : CallArgs) (h : Heap) :
  (∀ e, res (new w a h) = Raise e →
        ∃ attrs,
          objects (heap (new w a h)) !! fresh (dom (objects h)) =
            Some attrs ∧
          ∀ f, f ∈ "driver" :: config_fields → attrs !! f = None) ∧
  (∀ opts msg,
     registered (new w a h) = Some opts →
     webdriver_Chrome w (binary_path w) opts = inl msg →
     res (new w a h) = Raise (WebDriverException msg)) ∧
  (∀ opts s,
     registered (new w a h) = Some opts →
     webdriver_Chrome w (binary_path w) opts = inr s →
     res (new w a h) = Ok (fresh (dom (objects h))) ∧
     ∃ attrs,
       objects (heap (new w a h)) !! fresh (dom (objects h)) = Some attrs ∧
       attrs !! "driver" = Some (VDriver s) ∧
       ∀ f, f ∈ config_fields → is_Some (attrs !! f)) ∧
  (well_formed w a h = true → no_empty_option a h = true →
   is_Some (registered (new w a h))).
Proof.
  split_and!.
  - intros e He. rewrite (new_raise_objects w a h e He).
    eexists. split; [apply lookup_insert_eq|apply bare_attrs_lookup].
  - intros opts msg Hreg Hc.
    apply registered_new_inv in Hreg as (Hwf & Hne & ->).
    rewrite new_well_formed by done. unfold construction.
    by rewrite Hne, Hc.
  - intros opts s Hreg Hc.
    apply registered_new_inv in Hreg as (Hwf & Hne & ->).
    rewrite new_well_formed by done. unfold construction.
    rewrite Hne, Hc. simpl. split; [done|].
    eexists. split; [apply lookup_insert_eq|].
    split; [apply instance_attrs_driver|apply instance_attrs_complete].
  - intros Hwf Hne. rewrite registered_new_accepted by done. eauto.
Qed.

Lemma construction_atomic_witness :
  res (new linux_no_chrome crawl_args crawl_heap) =
    Raise (WebDriverException "DevToolsActivePort file missing") ∧
  ∃ attrs,
    objects (heap (new linux_no_chrome crawl_args crawl_heap))
      !! fresh (dom (objects crawl_heap)) = Some attrs ∧
    ∀ f, f ∈ "driver" :: config_fields → attrs !! f = None.
Proof.
  destruct (construction_atomic linux_no_chrome crawl_args crawl_heap)
    as (Hraise & Hfail & _ & Hreg).
  destruct (Hreg eq_refl eq_refl) as [opts Hopts].
  pose proof (Hfail opts _ Hopts eq_refl) as Hres.
  split; [exact Hres|exact (Hraise _ Hres)].
Defined.

(** C7: every one of the ten configuration parameters can be read back
    from the constructed instance and is the value passed in, or the
    default of the signature when it was left out. *)
Theorem configuration_stored (w : World) (a : CallArgs) (h : Heap)
    (self : loc) :
  res (new w a h) = Ok self →
  let read name := res (getattr self name (heap (new w a h))) in
  read "urls" = Ok (default VNone (arg_urls a)) ∧
  read "crawler_depth" = Ok (default (VInt 1) (arg_crawler_depth a)) ∧
  read "filter_urls" = Ok (default VNone (arg_filter_urls a)) ∧
  read "id_hash_keys" = Ok (default VNone (arg_id_hash_keys a)) ∧
  read "extract_hidden_text" =
    Ok (default (VBool true) (arg_extract_hidden_text a)) ∧
  read "loading_wait_time" = Ok (default VNone (arg_loading_wait_time a)) ∧
  read "output_dir" = Ok (default VNone (arg_output_dir a)) ∧
  read "overwrite_existing_files" =
    Ok (default (VBool true) (arg_overwrite_existing_files a)) ∧
  read "file_path_meta_field_name" =
    Ok (default VNone (arg_file_path_meta_field_name a)) ∧
  read "crawler_naming_function" =
    Ok (default VNone (arg_crawler_naming_function a)).
Proof.
  intros Hres. pose proof (new_returns_well_formed _ _ _ _ Hres) as Hwf.
  rewrite new_well_formed in * by done. revert Hres.
  unfold construction. destruct (no_empty_option a h); [|done].
  destruct (webdriver_Chrome _ _ _) as [msg|s]; simpl; [done|].
  intros [= <-]. unfold getattr. simpl. rewrite lookup_insert_eq.
  pose proof (instance_attrs_config s a) as Hc. cbv zeta in Hc.
  destruct Hc as (H1&H2&H3&H4&H5&H6&H7&H8&H9&H10).
  by rewrite H1, H2, H3, H4, H5, H6, H7, H8, H9, H10.
Qed.

Lemma configuration_stored_witness :
  res (new linux_user crawl_args crawl_heap) = Ok 1%positive ∧
  res (getattr 1%positive "urls" (heap (new linux_user crawl_args crawl_heap)))
    = Ok (VList 2%positive) ∧
  res (getattr 1%positive "crawler_depth"
         (heap (new linux_user crawl_args crawl_heap))) = Ok (VInt 0) ∧
  res (getattr 1%positive "overwrite_existing_files"
         (heap (new linux_user crawl_args crawl_heap))) = Ok (VBool true).
Proof.
  split; [reflexivity|].
  pose proof (configuration_stored linux_user crawl_args crawl_heap
                1%positive eq_refl) as (Hu & Hd & _ & _ & _ & _ & _ & Ho & _).
  split; [exact Hu|]. split; [exact Hd|exact Ho].
Defined.

(** ** The environment signals *)

(** C9: [IN_AZUREML] is true exactly when the environment has
    [AZUREML_ENVIRONMENT_IMAGE] set to the string ["True"]. *)
Theorem IN_AZUREML_exact (w : World) :
  IN_AZUREML w = true ↔
  os_environ w !! "AZUREML_ENVIRONMENT_IMAGE" = Some "True".
Proof. unfold IN_AZUREML. apply bool_decide_eq_true. Qed.

(** Other spellings and an unset variable give false. *)
Example IN_AZUREML_True :
  IN_AZUREML (with_environ {[ "AZUREML_ENVIRONMENT_IMAGE" := "True" ]}) = true.
Proof. reflexivity. Qed.

Example IN_AZUREML_lowercase :
  IN_AZUREML (with_environ {[ "AZUREML_ENVIRONMENT_IMAGE" := "true" ]}) = false.
Proof. reflexivity. Qed.

Example IN_AZUREML_one :
  IN_AZUREML (with_environ {[ "AZUREML_ENVIRONMENT_IMAGE" := "1" ]}) = false.
Proof. reflexivity. Qed.

Example IN_AZUREML_unset :
  IN_AZUREML (with_environ {[ "HOME" := "/root" ]}) = false.
Proof. reflexivity. Qed.

(** ** Runs *)

Example caller_list_after_root_run :
  lists (heap (new linux_root caller_args caller_heap)) !! 1%positive =
  Some ["--window-size=800,600"; "--headless"; "--no-sandbox";
        "--remote-debugging-port=9222"].
Proof. reflexivity. Qed.

Example caller_list_after_failed_start :
  lists (heap (new linux_no_chrome caller_args caller_heap)) !! 1%positive =
  Some ["--window-size=800,600"; "--headless"].
Proof. reflexivity. Qed.

Example failed_start_raises :
  res (new linux_no_chrome crawl_args crawl_heap) =
  Raise (WebDriverException "DevToolsActivePort file missing").
Proof. reflexivity. Qed.

Example windows_run_log :
  log (new windows_host no_args empty_heap) =
  [EvChrome "chromedriver.exe"
     (elements (list_to_set
        (default_options ++ ["--headless"; "--no-sandbox";
                             "--remote-debugging-port=9222"])
        : gset string))].
Proof. reflexivity. Qed.

Example missing_geteuid_off_windows :
  res (new {| sys_modules := ∅; os_environ := ∅; sys_platform := "linux";
              os_geteuid := None; binary_path := "chromedriver";
              webdriver_Chrome := λ _ _, inr 7%nat |} no_args empty_heap) =
  Raise (AttributeError "geteuid").
Proof. reflexivity. Qed.

(** The attributes hold references: a list passed both as [urls] and as
    [webdriver_options] is stored as it was passed, and it is the list the
    flags were appended to. *)
Example aliased_urls_run :
  let o := new linux_user aliased_args caller_heap in
  res (getattr 1%positive "urls" (heap o)) = Ok (VList 1%positive) ∧
  lists (heap o) !! 1%positive = Some ["--window-size=800,600"; "--headless"].
Proof. split; reflexivity. Qed.

(** An empty string among the options stops the call at Selenium's
    [add_argument], before the browser is started. *)
Example empty_option_raises :
  res (new linux_user caller_args blank_heap) =
    Raise (ValueError "argument can not be null") ∧
  log (new linux_user caller_args blank_heap) = [EvGeteuid] ∧
  lists (heap (new linux_user caller_args blank_heap)) !! 1%positive =
    Some ["--lang=de"; ""; "--headless"].
Proof. split_and!; reflexivity. Qed.

(** The wrapper of the base class records the call before the body
    runs. *)
Example component_config_recorded :
  res (getattr 1%positive "_component_config"
         (heap (new linux_no_chrome caller_args caller_heap))) =
  Ok (VDict [ ("params", VDict [("webdriver_options", VList 1%positive)]);
              ("type", VStr "CustomCrawler") ]).
Proof. reflexivity. Qed.

(** ** The registered set, flag by flag *)

(** X1: when Selenium accepts the options, the registered launch arguments
    are exactly the flags of the list the constructor started from,
    ["--headless"], and each conditional flag whose condition holds;
    nothing is dropped and nothing else is added. *)
Theorem registered_exactly (w : World) (a : CallArgs) (h : Heap)
    (root : bool) :
  well_formed w a h = true →
  no_empty_option a h = true →
  res (IS_ROOT w h) = Ok root →
  ∃ opts,
    registered (new w a h) = Some opts ∧
    ∀ x, x ∈ opts ↔
         x ∈ (target a h).2 ∨
         x = "--headless" ∨
         (x = "--no-sandbox" ∧ root || IN_WINDOWS w || IN_COLAB w = true) ∨
         (x = "--remote-debugging-port=9222" ∧
          root || IN_WINDOWS w = true) ∨
         (x = "--disable-dev-shm-usage" ∧
          IN_COLAB w || IN_AZUREML w = true).
Proof.
  intros Hwf Hne [_ <-]%IS_ROOT_res.
  eexists. split; [by apply registered_new_accepted|]. intros x.
  rewrite elem_of_elements, elem_of_list_to_set.
  rewrite (elem_of_apply_rules _ (rules_of w)).
  by rewrite elem_of_rules_of.
Qed.

Lemma registered_exactly_witness :
  ∃ opts,
    registered (new colab_user caller_args caller_heap) = Some opts ∧
    ∀ x, x ∈ opts ↔
         x ∈ (target caller_args caller_heap).2 ∨
         x = "--headless" ∨
         (x = "--no-sandbox" ∧
          false || IN_WINDOWS colab_user || IN_COLAB colab_user = true) ∨
         (x = "--remote-debugging-port=9222" ∧
          false || IN_WINDOWS colab_user = true) ∨
         (x = "--disable-dev-shm-usage" ∧
          IN_COLAB colab_user || IN_AZUREML colab_user = true).
Proof.
  apply (registered_exactly colab_user caller_args caller_heap false);
    reflexivity.
Defined.

(** X2: with all four signals false and options that Selenium accepts, the
    registered set is the set of the list the constructor started from,
    plus ["--headless"]. *)
Theorem quiet_environment_adds_headless_only (w : World) (a : CallArgs)
    (h : Heap) :
  well_formed w a h = true →
  no_empty_option a h = true →
  res (IS_ROOT w h) = Ok false →
  IN_WINDOWS w = false →
  IN_COLAB w = false →
  IN_AZUREML w = false →
  ∃ opts,
    registered (new w a h) = Some opts ∧
    list_to_set opts =@{gset string}
    list_to_set (target a h).2 ∪ {["--headless"]}.
Proof.
  intros Hwf Hne [_ Hsu]%IS_ROOT_res Hwin Hcolab Hazure.
  eexists. split; [by apply registered_new_accepted|].
  rewrite list_to_set_elements_L. apply set_eq. intros x.
  rewrite elem_of_union, elem_of_singleton, !elem_of_list_to_set.
  rewrite (elem_of_apply_rules _ (rules_of w)), elem_of_rules_of.
  rewrite Hsu, Hwin, Hcolab, Hazure. simpl.
  split; [|tauto].
  intros [?|[?|[[_ ?]|[[_ ?]|[_ ?]]]]]; auto; discriminate.
Qed.

Lemma quiet_environment_adds_headless_only_witness :
  ∃ opts,
    registered (new linux_user caller_args caller_heap) = Some opts ∧
    list_to_set opts =@{gset string}
    list_to_set (target caller_args caller_heap).2 ∪ {["--headless"]}.
Proof.
  apply (quiet_environment_adds_headless_only linux_user caller_args
           caller_heap); reflexivity.
Defined.

(** ** Platforms *)



(** X4: off Windows, on a platform whose [os] module has no [geteuid], the
    call raises [AttributeError] at the privilege lookup: the browser is
    not started, no list is changed (a list of the caller stays as it was)
    and the allocated instance has [_component_config] and nothing else. *)
Theorem missing_geteuid_fails_early (w : World) (a : CallArgs) (h : Heap) :
  IN_WINDOWS w = false →
  os_geteuid w = None →
  new w a h =
  {| res := Raise (AttributeError "geteuid");
     heap := {| lists := lists h;
                objects := <[fresh (dom (objects h)):=
                               {[ "_component_config" := component_config a ]}]>
                             (objects h) |};
     log := [EvGeteuid] |}.
Proof.
  intros Hwin Hg. rewrite new_run. cbv zeta.
  unfold bind at 1, __init__.
  erewrite (bind_raise (IS_ROOT w)); [reflexivity|].
  unfold IS_ROOT, geteuid, bind, emit. by rewrite Hwin, Hg.
Qed.

Lemma missing_geteuid_fails_early_witness :
  new wasm_host caller_args caller_heap =
  {| res := Raise (AttributeError "geteuid");
     heap := {| lists := lists caller_heap;
                objects := <[fresh (dom (objects caller_heap)):=
                               {[ "_component_config" :=
                                    component_config caller_args ]}]>
                             (objects caller_heap) |};
     log := [EvGeteuid] |}.
Proof.
  apply (missing_geteuid_fails_early wasm_host caller_args caller_heap);
    reflexivity.
Defined.

(** ** What the call leaves alone *)

Lemma target_fresh (a : CallArgs) (h : Heap) (l : loc) :
  arg_webdriver_options a ≠ Some l →
  is_Some (lists h !! l) →
  (target a h).1 ≠ l.
Proof.
  intros Hne Hl. unfold target.
  destruct (arg_webdriver_options a) as [l'|]; simpl; [congruence|].
  intros Heq. apply elem_of_dom in Hl. rewrite <- Heq in Hl.
  by apply is_fresh in Hl.
Qed.

(** X5: the constructor changes one list only.  Every list of the heap
    other than the one passed as [webdriver_options] holds after the call
    what it held before; without [webdriver_options] the flags go to a new
    list and no existing list changes. *)
Theorem other_lists_unchanged (w : World) (a : CallArgs) (h : Heap)
    (l : loc) :
  well_formed w a h = true →
  arg_webdriver_options a ≠ Some l →
  is_Some (lists h !! l) →
  lists (heap (new w a h)) !! l = lists h !! l.
Proof.
  intros Hwf Hne Hl. rewrite new_well_formed by done.
  rewrite lists_construction. apply lookup_insert_ne.
  by apply target_fresh.
Qed.

Lemma other_lists_unchanged_witness :
  lists (heap (new linux_root caller_args busy_heap)) !! 3%positive =
  lists busy_heap !! 3%positive.
Proof.
  apply (other_lists_unchanged linux_root caller_args busy_heap 3%positive).
  - reflexivity.
  - discriminate.
  - eexists. reflexivity.
Defined.

(** X6: the instance the caller gets is a new object, and every instance
    that existed before the call keeps its attributes, whether the driver
    starts or not. *)
Theorem other_instances_unchanged (w : World) (a : CallArgs) (h : Heap)
    (obj : loc) :
  well_formed w a h = true →
  is_Some (objects h !! obj) →
  objects (heap (new w a h)) !! obj = objects h !! obj ∧
  res (new w a h) ≠ Ok obj.
Proof.
  intros Hwf Hobj. rewrite new_well_formed by done.
  assert (fresh (dom (objects h)) ≠ obj) as Hne.
  { intros Heq. apply elem_of_dom in Hobj. rewrite <- Heq in Hobj.
    by apply is_fresh in Hobj. }
  unfold construction.
  destruct (no_empty_option a h); [destruct (webdriver_Chrome _ _ _)|];
    simpl; (split; [by apply lookup_insert_ne|congruence]).
Qed.

Lemma other_instances_unchanged_witness :
  objects (heap (new linux_root caller_args busy_heap)) !! 1%positive =
    objects busy_heap !! 1%positive ∧
  res (new linux_root caller_args busy_heap) ≠ Ok 1%positive.
Proof.
  apply (other_instances_unchanged linux_root caller_args busy_heap
           1%positive).
  - reflexivity.
  - eexists. reflexivity.
Defined.

(** X7: a constructed instance has twelve attributes:
    [_component_config], set by the wrapper of the base class, [driver]
    and the ten configuration attributes, and no other. *)
Theorem instance_has_twelve_attributes (w : World) (a : CallArgs) (h : Heap)
    (self : loc) :
  res (new w a h) = Ok self →
  ∃ attrs,
    objects (heap (new w a h)) !! self = Some attrs ∧
    dom attrs =@{gset string}
      list_to_set ("_component_config" :: "driver" :: config_fields) ∧
    size attrs = 12.
Proof.
  intros Hres. pose proof (new_returns_well_formed _ _ _ _ Hres) as Hwf.
  rewrite new_well_formed in * by done. revert Hres.
  unfold construction. destruct (no_empty_option a h); [|done].
  destruct (webdriver_Chrome _ _ _) as [msg|s]; simpl; [done|].
  intros [= <-]. eexists. split; [apply lookup_insert_eq|].
  assert (dom (instance_attrs s a) =@{gset string}
          list_to_set ("_component_config" :: "driver" :: config_fields))
    as Hdom.
  { unfold instance_attrs, stored_attrs, bare_attrs.
    rewrite !dom_insert_L, dom_singleton_L.
    unfold config_fields. simpl. set_solver. }
  split; [done|].
  rewrite <- size_dom, Hdom. apply size_list_to_set.
  apply (bool_decide_unpack _). vm_compute. exact I.
Qed.

Lemma instance_has_twelve_attributes_witness :
  ∃ attrs,
    objects (heap (new linux_user crawl_args crawl_heap)) !! 1%positive =
      Some attrs ∧
    dom attrs =@{gset string}
      list_to_set ("_component_config" :: "driver" :: config_fields) ∧
    size attrs = 12.
Proof.
  apply (instance_has_twelve_attributes linux_user crawl_args crawl_heap
           1%positive).
  reflexivity.
Defined.

(** ** Calls in sequence *)

Lemma apply_rules_twice (rs : list rule) (xs : list string) :
  list_to_set (apply_rules rs (apply_rules rs xs)) =@{gset string}
  list_to_set (apply_rules rs xs).
Proof.
  apply set_eq. intros x.
  rewrite !elem_of_list_to_set, !elem_of_apply_rules. tauto.
Qed.

Lemma apply_rules_same_set (rs : list rule) (xs ys : list string) :
  list_to_set xs =@{gset string} list_to_set ys →
  list_to_set (apply_rules rs xs) =@{gset string}
  list_to_set (apply_rules rs ys).
Proof.
  intros Heq. apply set_eq. intros x.
  rewrite !elem_of_list_to_set, !elem_of_apply_rules.
  rewrite <- !(elem_of_list_to_set (C:=gset string)), Heq. tauto.
Qed.

Lemma well_formed_target (w : World) (a : CallArgs) (h : Heap) (l : loc)
    (xs : list string) :
  IN_WINDOWS w || bool_decide (is_Some (os_geteuid w)) = true →
  arg_webdriver_options a = Some l →
  lists h !! l = Some xs →
  well_formed w a h = true ∧ target a h = (l, xs) ∧
  no_empty_option a h = bool_decide ("" ∉ xs).
Proof.
  intros Henv Hopt Hxs.
  assert (target a h = (l, xs)) as Ht
    by (unfold target; by rewrite Hopt, Hxs).
  split_and!; [|done|].
  - unfold well_formed. by rewrite Henv, Hopt, Hxs.
  - unfold no_empty_option. by rewrite Ht.
Qed.

(** X8: a list of options used for a second construction has by then the
    flags of the first one at its end, and the second call appends them
    once more; when Selenium accepts the options, the launch arguments
    registered by the two calls are the same all the same. *)
Theorem reused_list_registers_same (w : World) (a : CallArgs) (h : Heap)
    (l : loc) (xs : list string) :
  well_formed w a h = true →
  arg_webdriver_options a = Some l →
  lists h !! l = Some xs →
  "" ∉ xs →
  ∃ opts1 opts2,
    registered (new w a h) = Some opts1 ∧
    registered (new w a (heap (new w a h))) = Some opts2 ∧
    opts1 ≡ₚ opts2 ∧
    lists (heap (new w a (heap (new w a h)))) !! l =
      Some (xs ++ ("--headless" :: apply_rules (tail (rules_of w)) []) ++
                  ("--headless" :: apply_rules (tail (rules_of w)) [])).
Proof.
  intros Hwf Hopt Hxs Hblank.
  assert (IN_WINDOWS w || bool_decide (is_Some (os_geteuid w)) = true)
    as Henv by (by apply andb_true_iff in Hwf as [? _]).
  destruct (well_formed_target w a h l xs) as (_ & Ht & Hne); [done..|].
  rewrite bool_decide_eq_true_2 in Hne by done.
  set (acc := apply_rules (rules_of w) xs).
  assert (lists (heap (new w a h)) !! l = Some acc) as Hacc.
  { rewrite new_well_formed, lists_construction, Ht by done.
    apply lookup_insert_eq. }
  destruct (well_formed_target w a (heap (new w a h)) l acc)
    as (Hwf2 & Ht2 & Hne2); [done..|].
  rewrite bool_decide_eq_true_2 in Hne2
    by (unfold acc; by rewrite empty_in_apply_rules).
  rewrite (new_well_formed w a (heap (new w a h))) by done.
  rewrite registered_construction, Hne2, lists_construction, Ht2.
  rewrite (registered_new_accepted w a h), Ht by done.
  cbn [fst snd].
  do 2 eexists. split_and!; [reflexivity..| |].
  - unfold acc. by rewrite apply_rules_twice.
  - rewrite lookup_insert_eq. f_equal. unfold acc.
    by rewrite !apply_rules_rules_of, <- app_assoc.
Qed.

Lemma reused_list_registers_same_witness :
  ∃ opts1 opts2,
    registered (new linux_root caller_args caller_heap) = Some opts1 ∧
    registered (new linux_root caller_args
                  (heap (new linux_root caller_args caller_heap)))
      = Some opts2 ∧
    opts1 ≡ₚ opts2 ∧
    lists (heap (new linux_root caller_args
                   (heap (new linux_root caller_args caller_heap))))
      !! 1%positive =
      Some (["--window-size=800,600"] ++
            ("--headless" :: apply_rules (tail (rules_of linux_root)) []) ++
            ("--headless" :: apply_rules (tail (rules_of linux_root)) [])).
Proof.
  apply (reused_list_registers_same linux_root caller_args caller_heap
           1%positive ["--window-size=800,600"]); try reflexivity.
  apply (bool_decide_unpack _). vm_compute. exact I.
Defined.

(** X9: a well-formed call whose options Selenium accepts starts the
    driver exactly once, with the path of [chromedriver_py] and the
    registered arguments; off Windows the privilege lookup runs exactly
    once and before the driver start, and nothing else is logged. *)
Theorem driver_started_once (w : World) (a : CallArgs) (h : Heap) :
  well_formed w a h = true →
  no_empty_option a h = true →
  ∃ opts,
    registered (new w a h) = Some opts ∧
    log (new w a h) =
      (if IN_WINDOWS w then [] else [EvGeteuid]) ++
      [EvChrome (binary_path w) opts].
Proof.
  intros Hwf Hne.
  eexists. split; [by apply registered_new_accepted|].
  rewrite new_well_formed by done. by apply log_construction.
Qed.

Lemma driver_started_once_witness :
  ∃ opts,
    registered (new linux_no_chrome caller_args caller_heap) = Some opts ∧
    log (new linux_no_chrome caller_args caller_heap) =
      (if IN_WINDOWS linux_no_chrome then [] else [EvGeteuid]) ++
      [EvChrome (binary_path linux_no_chrome) opts].
Proof.
  apply (driver_started_once linux_no_chrome caller_args caller_heap);
    reflexivity.
Defined.

(** X10: only the set of flags in the caller's list matters: two lists
    with the same flags and no empty string, in any order and with any
    repetitions, lead to the same registered launch arguments in the same
    environment. *)
Theorem caller_list_as_set (w : World) (a a' : CallArgs) (h h' : Heap)
    (l l' : loc) (xs ys : list string) :
  well_formed w a h = true →
  arg_webdriver_options a = Some l →
  lists h !! l = Some xs →
  arg_webdriver_options a' = Some l' →
  lists h' !! l' = Some ys →
  list_to_set xs =@{gset string} list_to_set ys →
  "" ∉ xs →
  ∃ opts opts',
    registered (new w a h) = Some opts ∧
    registered (new w a' h') = Some opts' ∧
    opts ≡ₚ opts'.
Proof.
  intros Hwf Hopt Hxs Hopt' Hys Heq Hblank.
  assert (IN_WINDOWS w || bool_decide (is_Some (os_geteuid w)) = true)
    as Henv by (by apply andb_true_iff in Hwf as [? _]).
  assert ("" ∉ ys) as Hblank'.
  { by rewrite <- (elem_of_list_to_set (C:=gset string)), <- Heq,
      elem_of_list_to_set. }
  destruct (well_formed_target w a h l xs) as (_ & Ht & Hne); [done..|].
  destruct (well_formed_target w a' h' l' ys) as (Hwf' & Ht' & Hne');
    [done..|].
  rewrite bool_decide_eq_true_2 in Hne by done.
  rewrite bool_decide_eq_true_2 in Hne' by done.
  rewrite !registered_new_accepted, Ht, Ht' by done. cbn [fst snd].
  do 2 eexists. split_and!; [reflexivity..|].
  by rewrite (apply_rules_same_set _ xs ys).
Qed.

Lemma caller_list_as_set_witness :
  ∃ opts opts',
    registered (new colab_user caller_args ordered_heap) = Some opts ∧
    registered (new colab_user caller_args shuffled_heap) = Some opts' ∧
    opts ≡ₚ opts'.
Proof.
  apply (caller_list_as_set colab_user caller_args caller_args
           ordered_heap shuffled_heap 1%positive 1%positive
           ["--window-size=800,600"; "--lang=de"]
           ["--lang=de"; "--window-size=800,600"; "--lang=de"]);
    try reflexivity.
  apply (bool_decide_unpack _). vm_compute. exact I.
Defined.

(** ** Options Selenium rejects *)

(** X11: when the caller's list holds an empty string, the call raises
    [ValueError] at [add_argument]: the browser is never started and no
    instance is returned, but the caller's list has by then been extended
    by ["--headless"] and the flags of the environment. *)
Theorem empty_option_fails_before_start (w : World) (a : CallArgs)
    (h : Heap) (l : loc) (xs : list string) :
  well_formed w a h = true →
  arg_webdriver_options a = Some l →
  lists h !! l = Some xs →
  "" ∈ xs →
  res (new w a h) = Raise (ValueError "argument can not be null") ∧
  chrome_calls (log (new w a h)) = [] ∧
  lists (heap (new w a h)) !! l =
    Some (xs ++ "--headless" :: apply_rules (tail (rules_of w)) []).
Proof.
  intros Hwf Hopt Hxs Hblank.
  assert (IN_WINDOWS w || bool_decide (is_Some (os_geteuid w)) = true)
    as Henv by (by apply andb_true_iff in Hwf as [? _]).
  destruct (well_formed_target w a h l xs) as (_ & Ht & Hne); [done..|].
  rewrite bool_decide_eq_false_2 in Hne by (intros Hn; by apply Hn).
  rewrite new_well_formed by done. split_and!.
  - unfold construction. by rewrite Hne.
  - unfold construction. rewrite Hne. simpl. by destruct (IN_WINDOWS w).
  - rewrite lists_construction, Ht, <- apply_rules_rules_of.
    apply lookup_insert_eq.
Qed.

Lemma empty_option_fails_before_start_witness :
  res (new linux_root caller_args blank_heap) =
    Raise (ValueError "argument can not be null") ∧
  chrome_calls (log (new linux_root caller_args blank_heap)) = [] ∧
  lists (heap (new linux_root caller_args blank_heap)) !! 1%positive =
    Some (["--lang=de"; ""] ++
          "--headless" :: apply_rules (tail (rules_of linux_root)) []).
Proof.
  apply (empty_option_fails_before_start linux_root caller_args blank_heap
           1%positive ["--lang=de"; ""]); try reflexivity.
  apply (bool_decide_unpack _). vm_compute. exact I.
Defined.
